(** * xdf4mne: reading an XDF recording into a recording container

    A shallow embedding of [read_raw_xdf] (src/xdf4mne/xdf.py) and the
    properties of its stream selection, channel labelling and marker
    alignment.

    The function is one Python body.  It is split here along the blank-line
    separated blocks of the source, each block becoming one definition that
    carries the name of the variable the block computes ([eeg_stream],
    [labels], [markers_streams], ...); [read_raw_xdf] chains them in source
    order. *)

From Stdlib Require Import Floats.
From stdpp Require Import base option list strings gmap pretty.

#[local] Set Warnings "-register-all".
#[local] Open Scope string_scope.
#[local] Open Scope list_scope.

(** ** Python values and exceptions *)

(** The values a stream descriptor is made of.  The loader builds the
    descriptor from the XML header of the file, so it holds [None], text,
    lists and string-keyed dictionaries.  A dictionary is a plain [dict]
    ([VDict]: a missing key raises [KeyError]) or a
    [collections.defaultdict(list)] ([VDefaultDict]: a missing key is
    answered with an empty list), which is what the loader makes of an XML
    element with children. *)
Inductive pyval : Type :=
| VNone
| VStr (s : string)
| VList (l : list pyval)
| VDict (d : gmap string pyval)
| VDefaultDict (d : gmap string pyval).

(** The exceptions that can leave the function.  [ValueError] carries its
    message: the only one the module raises itself is
    [ValueError('No EEG stream found')].  [LibraryError] stands for a
    rejection raised inside the numeric or container library (a size or
    shape it does not accept). *)
Inductive exn : Type :=
| ValueError (msg : string)
| TypeError
| IndexError
| KeyError
| LibraryError.

Inductive outcome (A : Type) : Type :=
| Returned (a : A)
| Raised (e : exn).
Arguments Returned {A} a.
Arguments Raised {A} e.

#[export] Instance outcome_ret : MRet outcome := λ A a, Returned a.
#[export] Instance outcome_bind : MBind outcome := λ A B f m,
  match m with
  | Returned a => f a
  | Raised e => Raised e
  end.
#[export] Instance outcome_fmap : FMap outcome := λ A B f m,
  match m with
  | Returned a => Returned (f a)
  | Raised e => Raised e
  end.

(** [raise ValueError('No EEG stream found')] *)
Definition NoStreamFound : exn := ValueError "No EEG stream found".

(** [v[k]] for a string key [k]. *)
Definition getitem_key (v : pyval) (k : string) : outcome pyval :=
  match v with
  | VDict d => match d !! k with
               | Some x => Returned x
               | None => Raised KeyError
               end
  | VDefaultDict d => Returned (default (VList []) (d !! k))
  | VNone | VStr _ | VList _ => Raised TypeError
  end.

Definition chars (s : string) : list pyval :=
  (λ c, VStr (String c EmptyString)) <$> String.list_ascii_of_string s.

(** [v[i]] for a non-negative integer [i]. *)
Definition getitem_idx (v : pyval) (i : nat) : outcome pyval :=
  match v with
  | VList l => match l !! i with
               | Some x => Returned x
               | None => Raised IndexError
               end
  | VStr s => match chars s !! i with
              | Some x => Returned x
              | None => Raised IndexError
              end
  | VDict _ => Raised KeyError
  | VDefaultDict _ => Returned (VList [])
  | VNone => Raised TypeError
  end.

(** The elements [for ch in v] runs over. *)
Definition py_iter (v : pyval) : outcome (list pyval) :=
  match v with
  | VList l => Returned l
  | VStr s => Returned (chars s)
  | VDict d | VDefaultDict d => Returned (VStr <$> (map_to_list d).*1)
  | VNone => Raised TypeError
  end.

(** The truth value of an optional string argument ([if name:]): [None] and
    the empty string are both false. *)
Definition truthy (o : option string) : bool :=
  match o with
  | Some s => bool_decide (s ≠ "")
  | None => false
  end.

(** ** Stream records, as the loader returns them *)

(** A two-dimensional numeric array of shape [(length cells, n_cols)]; the
    column count is kept apart so that an array with no row still has a
    shape. *)
Record ndarray : Type := {
  cells : list (list float);
  n_cols : nat
}.

Definition n_rows (a : ndarray) : nat := length (cells a).

(** [a.T] *)
Definition transpose (a : ndarray) : ndarray :=
  {| cells := (λ j, (λ row, nth j row 0%float) <$> cells a) <$> seq 0 (n_cols a);
     n_cols := n_rows a |}.

(** [time_series] is a numeric array (sampled streams) or a Python list with
    one entry per event (string markers). *)
Inductive time_series_t : Type :=
| TSArray (a : ndarray)
| TSList (items : list pyval).

(** [info]: the declared name and type ([info['name'][0]], [info['type'][0]],
    [None] when the header leaves them empty), the channel count and nominal
    rate after [int(...)] and [float(...)], and the value under ['desc']
    when the key is present. *)
Record stream_info : Type := {
  info_name : option string;
  info_type : option string;
  channel_count : nat;
  nominal_srate : float;
  desc : option pyval
}.

Record stream : Type := {
  info : stream_info;
  time_series : time_series_t;
  time_stamps : list float
}.

(** What iterating over a marker stream's [time_series] yields: the entries
    of a Python list, or the rows of an array (rows are arrays, not lists). *)
Inductive event_value : Type :=
| EvObj (v : pyval)
| EvRow (r : list float).

Definition events (ts : time_series_t) : list event_value :=
  match ts with
  | TSList items => EvObj <$> items
  | TSArray a => EvRow <$> cells a
  end.

(** ** The recording container *)

(** Modelled from the spec: the channel-metadata record of the external
    analysis library (names, sample rate, per-channel type); [create_info]
    and the constructors below belong to that library, not to this
    repository. *)
Record Info : Type := {
  ch_names : list string;
  sfreq : float;
  ch_types : list string
}.

(** Modelled from the spec: [create_info] of the external library; it
    rejects a sample rate that is not positive, and a list of types whose
    length differs from that of the names.  (The library renames names that
    occur twice; the record here keeps the names it is given.) *)
Definition create_info (names : list string) (fs : float) (types : list string)
  : outcome Info :=
  if (fs <=? 0)%float then Raised LibraryError
  else if bool_decide (length names = length types)
  then Returned {| ch_names := names; sfreq := fs; ch_types := types |}
  else Raised LibraryError.

(** Modelled from the spec: an annotation of the external library's
    collection (onset relative to the data start, duration, description). *)
Record annotation : Type := {
  onset : float;
  duration : Z;
  description : event_value
}.

(** Modelled from the spec: [Annotations(onset, duration, description)] of
    the external library.  What the specification fixes is the collection
    it makes: one annotation per event, with the onset, the duration and the
    description of that event (sections 3 and 4.5).  Which values the
    library takes as descriptions is its own rule and is a parameter,
    [takes]; sequences that do not pair off one to one make no such
    collection and are rejected. *)
Definition Annotations (takes : list event_value → bool)
    (onsets : list float) (durations : list Z)
    (descriptions : list event_value) : outcome (list annotation) :=
  if takes descriptions
     && bool_decide (length onsets = length durations
                     ∧ length onsets = length descriptions)
  then Returned (zip_with (λ od d, {| onset := od.1; duration := od.2; description := d |})
                          (zip onsets durations) descriptions)
  else Raised LibraryError.

(** Modelled from the spec: the output recording object of the external
    library: a channels-by-samples matrix, the channel metadata, the file
    names and an ordered annotation collection. *)
Record Raw : Type := {
  raw_info : Info;
  raw_data : ndarray;
  _filenames : list string;
  annotations : list annotation
}.

(** Modelled from the spec: [RawArray(data, info)] of the external library:
    one row of data per channel name, no annotation yet. *)
Definition RawArray (data : ndarray) (i : Info) : outcome Raw :=
  if bool_decide (n_rows data = length (ch_names i))
  then Returned {| raw_info := i; raw_data := data; _filenames := []; annotations := [] |}
  else Raised LibraryError.

(** [raw._filenames = fs] *)
Definition set_filenames (raw : Raw) (fs : list string) : Raw :=
  {| raw_info := raw_info raw; raw_data := raw_data raw;
     _filenames := fs; annotations := annotations raw |}.

(** Modelled from the spec: [raw.set_annotations(a)] of the external
    library replaces the collection; [raw.annotations + a] appends.  The
    collection is the ordered sequence the specification describes: what
    else the library may do to a collection it is handed (its own ordering,
    its treatment of onsets outside the recorded span) is outside this
    model. *)
Definition set_annotations (raw : Raw) (a : list annotation) : Raw :=
  {| raw_info := raw_info raw; raw_data := raw_data raw;
     _filenames := _filenames raw; annotations := a |}.

Definition n_channels (raw : Raw) : nat := length (ch_names (raw_info raw)).
Definition n_times (raw : Raw) : nat := n_cols (raw_data raw).

(** ** read_raw_xdf *)

Section read_raw_xdf.

(** [str(v)] for a list or a dictionary [v]: Python's rendering of a
    container.  No property below depends on what text it produces. *)
Variable container_str : pyval → string.

(** [np.array(items)] for a Python list [items], when the numeric library
    and the container accept it as a sample matrix ([None] when they reject
    it).  The conversion of text to numbers is the library's and is not
    fixed here. *)
Variable asarray : list pyval → option ndarray.

(** Whether the container library takes a list of values as the
    descriptions of annotations: the library's rule, not fixed here. *)
Variable takes_descriptions : list event_value → bool.

(** [str(v)] *)
Definition py_str (v : pyval) : string :=
  match v with
  | VStr s => s
  | VNone => "None"
  | VList _ | VDict _ | VDefaultDict _ => container_str v
  end.

(** [np.array(ts)] *)
Definition np_array (ts : time_series_t) : outcome ndarray :=
  match ts with
  | TSArray a => Returned a
  | TSList items =>
      match asarray items with
      | Some a => Returned a
      | None => Raised LibraryError
      end
  end.

(** *** Search for the EEG stream (lines 41-51) *)

(** [info['name'][0] == name] *)
Definition name_eq (s : stream) (name : option string) : bool :=
  bool_decide (info_name (info s) = name).

(** [info['type'][0] == ty] *)
Definition type_eq (s : stream) (ty : string) : bool :=
  bool_decide (info_type (info s) = Some ty).

(** The [for] loop with its two [break]s; [None] is the initial
    [eeg_stream = None]. *)
Fixpoint search_eeg_stream (streams : list stream)
    (name_stream_eeg : option string) (data_type : string) : option stream :=
  match streams with
  | [] => None
  | stream :: rest =>
      if truthy name_stream_eeg then
        if name_eq stream name_stream_eeg then Some stream
        else search_eeg_stream rest name_stream_eeg data_type
      else
        if type_eq stream data_type then Some stream
        else search_eeg_stream rest name_stream_eeg data_type
  end.

(** *** Channel labels (lines 57-66) *)

(** [eeg_stream["info"]["desc"][0]["channels"][0]["channel"]] *)
Definition channel_list (i : stream_info) : outcome pyval :=
  d ← match desc i with
      | Some d => Returned d
      | None => Raised KeyError
      end;
  d0 ← getitem_idx d 0;
  cs ← getitem_key d0 "channels";
  c0 ← getitem_idx cs 0;
  getitem_key c0 "channel".

(** [str(ch["label"][0])] *)
Definition label_of (ch : pyval) : outcome string :=
  l ← getitem_key ch "label";
  x ← getitem_idx l 0;
  mret (py_str x).

(** The body of the [for ch in ...] loop, threading the list [labels]: the
    labels appended so far survive an exception. *)
Fixpoint append_labels (chs : list pyval) (labels : list string)
  : list string * option exn :=
  match chs with
  | [] => (labels, None)
  | ch :: rest =>
      match label_of ch with
      | Returned s => append_labels rest (labels ++ [s])
      | Raised e => (labels, Some e)
      end
  end.

(** The [try] block: the state of [labels] when it ends, and the exception
    that ended it, if any. *)
Definition try_labels (i : stream_info) : list string * option exn :=
  match channel_list i ≫= py_iter with
  | Returned chs => append_labels chs []
  | Raised e => ([], Some e)
  end.

(** [except (TypeError, IndexError, KeyError)] *)
Definition caught (e : exn) : bool :=
  match e with
  | TypeError | IndexError | KeyError => true
  | ValueError _ | LibraryError => false
  end.

(** [try: ... except (TypeError, IndexError, KeyError): pass] *)
Definition read_labels (i : stream_info) : outcome (list string) :=
  match try_labels i with
  | (labels, None) => Returned labels
  | (labels, Some e) => if caught e then Returned labels else Raised e
  end.

(** [[f'EEG {n}' for n in range(n_chans)]] *)
Definition placeholder_labels (n_chans : nat) : list string :=
  (λ n, "EEG " +:+ pretty n) <$> seq 0 n_chans.

(** Lines 59-66: the labels read from the descriptor, or the placeholders
    when [labels] is empty. *)
Definition channel_labels (i : stream_info) : outcome (list string) :=
  labels ← read_labels i;
  mret (match labels with
        | [] => placeholder_labels (channel_count i)
        | _ :: _ => labels
        end).

(** *** The recording (lines 57-73) *)

Definition build_raw (fname : string) (eeg_stream : stream) : outcome Raw :=
  let n_chans := channel_count (info eeg_stream) in
  let fs := nominal_srate (info eeg_stream) in
  labels ← channel_labels (info eeg_stream);
  i ← create_info labels fs (replicate n_chans "eeg");
  data ← transpose <$> np_array (time_series eeg_stream);
  raw ← RawArray data i;
  mret (set_filenames raw [fname]).

(** [eeg_stream["time_stamps"][0]] (line 76) *)
Definition first_timestamp (eeg_stream : stream) : outcome float :=
  match time_stamps eeg_stream with
  | t :: _ => Returned t
  | [] => Raised IndexError
  end.

(** *** Find the marker streams (lines 79-88) *)

(** The loop threads the list [markers_streams]; in name mode the first
    match is appended and the loop is left. *)
Fixpoint find_markers_loop (streams : list stream)
    (name_stream_markers : option string) (data_type_markers : string)
    (markers_streams : list stream) : list stream :=
  match streams with
  | [] => markers_streams
  | stream :: rest =>
      if truthy name_stream_markers then
        if name_eq stream name_stream_markers then markers_streams ++ [stream]
        else find_markers_loop rest name_stream_markers data_type_markers markers_streams
      else
        if type_eq stream data_type_markers
        then find_markers_loop rest name_stream_markers data_type_markers
               (markers_streams ++ [stream])
        else find_markers_loop rest name_stream_markers data_type_markers markers_streams
  end.

Definition find_markers_streams (streams : list stream)
    (name_stream_markers : option string) (data_type_markers : string) : list stream :=
  find_markers_loop streams name_stream_markers data_type_markers [].

(** *** Iterate over marker streams (lines 91-99) *)

(** [item[0] if isinstance(item, list) else item] *)
Definition describe (item : event_value) : outcome event_value :=
  match item with
  | EvObj (VList l) =>
      match l with
      | x :: _ => Returned (EvObj x)
      | [] => Raised IndexError
      end
  | EvObj _ | EvRow _ => Returned item
  end.

(** Lines 93-98: the annotations built for one marker stream. *)
Definition stream_annotations (first_samp : float) (marker_stream : stream)
  : outcome (list annotation) :=
  let onsets := (λ t, (t - first_samp)%float) <$> time_stamps marker_stream in
  descriptions ← mapM describe (events (time_series marker_stream));
  let durations := replicate (length onsets) 0%Z in
  Annotations takes_descriptions onsets durations descriptions.

(** The loop of lines 91-99, threading the recording. *)
Fixpoint annotate (markers_streams : list stream) (first_samp : float) (raw : Raw)
  : outcome Raw :=
  match markers_streams with
  | [] => Returned raw
  | marker_stream :: rest =>
      a ← stream_annotations first_samp marker_stream;
      annotate rest first_samp (set_annotations raw (annotations raw ++ a))
  end.

(** The whole function.  [streams] is the list [load_xdf(fname)] returned. *)
Definition read_raw_xdf (streams : list stream) (fname : string)
    (name_stream_eeg name_stream_markers : option string)
    (data_type data_type_markers : string) : outcome Raw :=
  match search_eeg_stream streams name_stream_eeg data_type with
  | None => Raised NoStreamFound
  | Some eeg_stream =>
      raw ← build_raw fname eeg_stream;
      first_samp ← first_timestamp eeg_stream;
      annotate (find_markers_streams streams name_stream_markers data_type_markers)
               first_samp raw
  end.

End read_raw_xdf.

(** ** Vocabulary of the properties *)

(** The data-stream selection criterion: the given name, or else the given
    data type. *)
Definition selects (name : option string) (ty : string) (s : stream) : bool :=
  if truthy name then name_eq s name else type_eq s ty.

(** A stream with its declared type replaced. *)
Definition set_type (g : stream → option string) (s : stream) : stream :=
  {| info := {| info_name := info_name (info s); info_type := g s;
                channel_count := channel_count (info s);
                nominal_srate := nominal_srate (info s); desc := desc (info s) |};
     time_series := time_series s; time_stamps := time_stamps s |}.

(** A stream with its declared name replaced. *)
Definition set_name (g : stream → option string) (s : stream) : stream :=
  {| info := {| info_name := g s; info_type := info_type (info s);
                channel_count := channel_count (info s);
                nominal_srate := nominal_srate (info s); desc := desc (info s) |};
     time_series := time_series s; time_stamps := time_stamps s |}.

(** The descriptor yields no label: the walk to the channel list fails at
    some step (a missing key, a value of the wrong shape, something that
    cannot be iterated), or the channel list is empty, or the first channel
    has no readable label. *)
Definition labels_absent (container_str : pyval → string) (i : stream_info) : Prop :=
  match channel_list i ≫= py_iter with
  | Raised _ => True
  | Returned [] => True
  | Returned (ch :: _) => ∃ e, label_of container_str ch = Raised e
  end.

(** Some step of the descriptor walk fails: the [try] block is left by an
    exception. *)
Definition structural_absence (container_str : pyval → string) (i : stream_info) : Prop :=
  ∃ e, (try_labels container_str i).2 = Some e.

(** The description rule in the words of the specification: a one-element
    sequence is unwrapped, any other value is used as it is. *)
Definition spec_description (v : pyval) : pyval :=
  match v with
  | VList [x] => x
  | _ => v
  end.

(** ** Sample recordings

    Concrete loader results, used to run the model. *)

(** A rendering of containers, a numeric library that takes no Python
    list as sample data, and a container library that takes text and [None]
    as descriptions: the instances at which the examples are run. *)
Definition sample_str : pyval → string := λ _, "<container>".
Definition sample_asarray : list pyval → option ndarray := λ _, None.
Definition sample_takes : list event_value → bool :=
  forallb (λ d, match d with
                | EvObj (VStr _) | EvObj VNone => true
                | _ => false
                end).

Definition mk_info (name ty : string) (n : nat) (d : pyval) : stream_info :=
  {| info_name := Some name; info_type := Some ty; channel_count := n;
     nominal_srate := 100%float; desc := Some d |}.

(** What the loader makes of an empty [<desc/>] element: [[None]]. *)
Definition no_desc : pyval := VList [VNone].

(** What the loader makes of [<channel><label>label</label></channel>]. *)
Definition channel_entry (label : string) : pyval :=
  VDefaultDict {[ "label" := VList [VStr label] ]}.

(** What the loader makes of a channel element that gives a unit and no
    label. *)
Definition unlabelled_entry : pyval :=
  VDefaultDict {[ "unit" := VList [VStr "microvolts"] ]}.

(** What the loader makes of
    [<desc><channels><channel>...</channel>...</channels></desc>]. *)
Definition desc_of (chs : list pyval) : pyval :=
  VList [VDefaultDict {[ "channels" := VList [VDefaultDict {[ "channel" := VList chs ]}] ]}].

(** Three samples of two channels. *)
Definition samples_3x2 : ndarray :=
  {| cells := [[1; 2]; [3; 4]; [5; 6]]%float; n_cols := 2 |}.

(** An EEG stream with an empty descriptor. *)
Definition eeg_plain : stream :=
  {| info := mk_info "amp" "EEG" 2 no_desc;
     time_series := TSArray samples_3x2;
     time_stamps := [100; 101; 102]%float |}.

(** An EEG stream whose descriptor labels both channels. *)
Definition eeg_labelled : stream :=
  {| info := mk_info "amp2" "EEG" 2 (desc_of [channel_entry "Fz"; channel_entry "Cz"]);
     time_series := TSArray samples_3x2;
     time_stamps := [100; 101; 102]%float |}.

(** An EEG stream whose descriptor labels the first channel only: the
    second channel element has no label. *)
Definition eeg_partial : stream :=
  {| info := mk_info "amp3" "EEG" 2 (desc_of [channel_entry "Fz"; unlabelled_entry]);
     time_series := TSArray samples_3x2;
     time_stamps := [100; 101; 102]%float |}.

(** An empty EEG stream: two channels, no sample and no time stamp. *)
Definition eeg_unstamped : stream :=
  {| info := mk_info "amp4" "EEG" 2 no_desc;
     time_series := TSArray {| cells := []; n_cols := 2 |};
     time_stamps := [] |}.


(** String markers, one channel. *)
Definition markers_abc : stream :=
  {| info := mk_info "events" "Markers" 1 no_desc;
     time_series := TSList [VList [VStr "a"]; VList [VStr "b"]; VList [VStr "c"]];
     time_stamps := [100; 105; 110]%float |}.

(** A second marker stream carrying the same name as [markers_abc], with an
    event before the first data sample. *)
Definition markers_early : stream :=
  {| info := mk_info "events" "Markers" 1 no_desc;
     time_series := TSList [VList [VStr "x"]; VList [VStr "y"]];
     time_stamps := [99; 103]%float |}.

(** String markers with two channels: each event is a two-element list. *)
Definition markers_pair : stream :=
  {| info := mk_info "pairs" "Markers" 2 no_desc;
     time_series := TSList [VList [VStr "a"; VStr "b"]];
     time_stamps := [107]%float |}.

(** * Properties *)

(** ** Stream selection *)

Lemma search_eeg_stream_head streams name ty :
  search_eeg_stream streams name ty = head (List.filter (selects name ty) streams).
Proof.
  unfold selects. induction streams as [|s rest IH]; simpl; [done|].
  destruct (truthy name).
  - destruct (name_eq s name); [done | exact IH].
  - destruct (type_eq s ty); [done | exact IH].
Qed.

Lemma search_eeg_stream_first streams name ty s :
  search_eeg_stream streams name ty = Some s ↔
  ∃ pre post, streams = pre ++ s :: post ∧ selects name ty s = true
              ∧ Forall (λ x, selects name ty x = false) pre.
Proof.
  assert (Hstep : ∀ x rest, search_eeg_stream (x :: rest) name ty =
            if selects name ty x then Some x else search_eeg_stream rest name ty).
  { intros x rest. unfold selects. simpl. by destruct (truthy name). }
  induction streams as [|x rest IH].
  - split; [done|]. intros (pre & post & Heq & _). by destruct pre.
  - rewrite Hstep. destruct (selects name ty x) eqn:Hx.
    + split.
      * intros [= <-]. exists [], rest. by repeat split.
      * intros (pre & post & Heq & Hs & Hpre). destruct pre as [|y pre].
        -- by injection Heq as ->.
        -- injection Heq as -> _. apply Forall_cons in Hpre as [Hy _]. congruence.
    + rewrite IH. split.
      * intros (pre & post & -> & Hs & Hpre). exists (x :: pre), post.
        repeat split; [done|]. by constructor.
      * intros (pre & post & Heq & Hs & Hpre). destruct pre as [|y pre].
        -- injection Heq as ->. congruence.
        -- injection Heq as -> ->. apply Forall_cons in Hpre as [_ Hpre]. eauto.
Qed.

Lemma search_eeg_stream_None streams name ty :
  search_eeg_stream streams name ty = None ↔
  Forall (λ x, selects name ty x = false) streams.
Proof.
  rewrite search_eeg_stream_head.
  induction streams as [|x rest IH]; simpl.
  - split; [constructor | done].
  - destruct (selects name ty x) eqn:Hx; simpl.
    + split; [done|]. intros [? _]%Forall_cons. congruence.
    + rewrite IH. split; [by constructor | by intros [_ ?]%Forall_cons].
Qed.

(** In name mode the declared types, and the requested type, play no part. *)
Lemma search_by_name_ignores_type streams name ty ty' g :
  truthy name = true →
  search_eeg_stream (set_type g <$> streams) name ty'
  = set_type g <$> search_eeg_stream streams name ty.
Proof.
  intros Hn. induction streams as [|s rest IH]; simpl; [done|].
  rewrite Hn. change (name_eq (set_type g s) name) with (name_eq s name).
  destruct (name_eq s name); [done | exact IH].
Qed.

(** In type mode the declared names, and which empty name was passed, play
    no part. *)
Lemma search_by_type_ignores_name streams name name' ty g :
  truthy name = false → truthy name' = false →
  search_eeg_stream (set_name g <$> streams) name' ty
  = set_name g <$> search_eeg_stream streams name ty.
Proof.
  intros Hn Hn'. induction streams as [|s rest IH]; simpl; [done|].
  rewrite Hn, Hn'. change (type_eq (set_name g s) ty) with (type_eq s ty).
  destruct (type_eq s ty); [done | exact IH].
Qed.

(** C1. The data stream is searched in loader order.  With a name given (a
    non-empty string: the code tests the truth value of the argument), the
    result is the first stream whose declared name equals it, nothing after
    that stream is looked at, and neither the declared types nor the
    requested type are consulted.  With no name given, the result is the
    first stream whose declared type equals the requested type, and the
    declared names are not consulted.  The two modes exclude each other. *)
Theorem C1_data_stream_selection streams name ty :
  (truthy name = true →
     search_eeg_stream streams name ty
       = head (List.filter (λ s, name_eq s name) streams)
     ∧ (∀ s, search_eeg_stream streams name ty = Some s ↔
          ∃ pre post, streams = pre ++ s :: post ∧ name_eq s name = true
                      ∧ Forall (λ x, name_eq x name = false) pre)
     ∧ (∀ g ty', search_eeg_stream (set_type g <$> streams) name ty'
                 = set_type g <$> search_eeg_stream streams name ty))
  ∧ (truthy name = false →
     search_eeg_stream streams name ty
       = head (List.filter (λ s, type_eq s ty) streams)
     ∧ (∀ s, search_eeg_stream streams name ty = Some s ↔
          ∃ pre post, streams = pre ++ s :: post ∧ type_eq s ty = true
                      ∧ Forall (λ x, type_eq x ty = false) pre)
     ∧ (∀ g name', truthy name' = false →
          search_eeg_stream (set_name g <$> streams) name' ty
          = set_name g <$> search_eeg_stream streams name ty)).
Proof.
  split; intros Hn.
  - split; [|split].
    + rewrite search_eeg_stream_head. unfold selects. by rewrite Hn.
    + intros s. rewrite search_eeg_stream_first. unfold selects. by rewrite Hn.
    + intros g ty'. by apply search_by_name_ignores_type.
  - split; [|split].
    + rewrite search_eeg_stream_head. unfold selects. by rewrite Hn.
    + intros s. rewrite search_eeg_stream_first. unfold selects. by rewrite Hn.
    + intros g name' Hn'. by apply search_by_type_ignores_name.
Qed.

(** The modes at work: the stream named ["events"] is found by name although
    an EEG-typed stream precedes it, and the empty name selects by type. *)
Example search_eeg_stream_modes :
  search_eeg_stream [eeg_plain; markers_abc; markers_early] (Some "events") "EEG"
    = Some markers_abc
  ∧ search_eeg_stream [markers_abc; eeg_plain; eeg_labelled] None "EEG" = Some eeg_plain
  ∧ search_eeg_stream [markers_abc; eeg_plain; eeg_labelled] (Some "") "EEG" = Some eeg_plain
  ∧ search_eeg_stream [markers_abc; eeg_plain] (Some "EEG") "EEG" = None.
Proof. by vm_compute. Qed.

Lemma find_markers_loop_acc streams name ty acc :
  find_markers_loop streams name ty acc = acc ++ find_markers_loop streams name ty [].
Proof.
  revert acc. induction streams as [|s rest IH]; intros acc; simpl.
  - by rewrite app_nil_r.
  - destruct (truthy name).
    + destruct (name_eq s name); [done | apply IH].
    + destruct (type_eq s ty); [|apply IH].
      rewrite (IH (acc ++ [s])), (IH [s]). by rewrite <- app_assoc.
Qed.

Lemma find_markers_by_name streams name ty :
  truthy name = true →
  find_markers_streams streams name ty
  = option_list (head (List.filter (λ s, name_eq s name) streams)).
Proof.
  intros Hn. unfold find_markers_streams.
  induction streams as [|s rest IH]; simpl; [done|].
  rewrite Hn. destruct (name_eq s name); [done | exact IH].
Qed.

Lemma find_markers_by_type streams name ty :
  truthy name = false →
  find_markers_streams streams name ty = List.filter (λ s, type_eq s ty) streams.
Proof.
  intros Hn. unfold find_markers_streams.
  induction streams as [|s rest IH]; simpl; [done|].
  rewrite Hn. destruct (type_eq s ty); [|exact IH].
  rewrite find_markers_loop_acc. simpl. by rewrite IH.
Qed.

(** C4. With a marker-stream name given, at most one stream is selected:
    the first one whose declared name equals the name, also when later
    streams carry the same name.  With no name given, every stream whose
    declared type equals the requested marker type is selected, in loader
    order; the data-stream search run with the same arguments keeps only
    the first of them. *)
Theorem C4_marker_stream_selection streams name ty :
  (truthy name = true →
     find_markers_streams streams name ty
       = option_list (head (List.filter (λ s, name_eq s name) streams))
     ∧ (length (find_markers_streams streams name ty) ≤ 1)%nat)
  ∧ (truthy name = false →
     find_markers_streams streams name ty = List.filter (λ s, type_eq s ty) streams
     ∧ search_eeg_stream streams name ty = head (find_markers_streams streams name ty)).
Proof.
  split; intros Hn.
  - rewrite find_markers_by_name by done. split; [done|].
    destruct (head _); simpl; lia.
  - rewrite find_markers_by_type by done. split; [done|].
    rewrite search_eeg_stream_head. unfold selects. by rewrite Hn.
Qed.

(** Two marker streams share the name ["events"]: by name only the first
    is selected, by type both are. *)
Example find_markers_streams_modes :
  find_markers_streams [eeg_plain; markers_abc; markers_early] (Some "events") "Markers"
    = [markers_abc]
  ∧ find_markers_streams [eeg_plain; markers_abc; markers_early] None "Markers"
    = [markers_abc; markers_early]
  ∧ find_markers_streams [eeg_plain; markers_abc; markers_early] (Some "none") "Markers"
    = [].
Proof. by vm_compute. Qed.

(** ** Channel labels *)

Section labels.

Variable container_str : pyval → string.

Lemma getitem_key_caught v k e : getitem_key v k = Raised e → caught e = true.
Proof. destruct v; simpl; try destruct (_ !! _); by intros [= <-]. Qed.

Lemma getitem_idx_caught v i e : getitem_idx v i = Raised e → caught e = true.
Proof. destruct v; simpl; try destruct (_ !! _); by intros [= <-]. Qed.

Lemma py_iter_caught v e : py_iter v = Raised e → caught e = true.
Proof. destruct v; simpl; by intros [= <-]. Qed.

Lemma bind_Raised {A B} (m : outcome A) (f : A → outcome B) e :
  m ≫= f = Raised e → m = Raised e ∨ ∃ a, m = Returned a ∧ f a = Raised e.
Proof. destruct m as [a|e']; simpl; intros H; [right; eauto | left; by injection H as ->]. Qed.

Lemma bind_Returned {A B} (m : outcome A) (f : A → outcome B) b :
  m ≫= f = Returned b → ∃ a, m = Returned a ∧ f a = Returned b.
Proof. destruct m as [a|e']; simpl; intros H; [eauto | done]. Qed.

Lemma channel_list_caught i e :
  channel_list i ≫= py_iter = Raised e → caught e = true.
Proof.
  unfold channel_list. intros H.
  repeat (apply bind_Raised in H as [H | (? & _ & H)]);
    eauto using getitem_key_caught, getitem_idx_caught, py_iter_caught.
  destruct (desc i); [done|]. by injection H as <-.
Qed.

Lemma label_of_caught ch e : label_of container_str ch = Raised e → caught e = true.
Proof.
  unfold label_of. intros H.
  repeat (apply bind_Raised in H as [H | (? & _ & H)]);
    eauto using getitem_key_caught, getitem_idx_caught.
  done.
Qed.

Lemma append_labels_caught chs acc labels e :
  append_labels container_str chs acc = (labels, Some e) → caught e = true.
Proof.
  revert acc. induction chs as [|ch rest IH]; intros acc; simpl; [done|].
  destruct (label_of container_str ch) eqn:Hl; [apply IH|].
  intros [= _ <-]. by eapply label_of_caught.
Qed.

(** No exception leaves the [try] block: whatever ends the walk is one of
    the three exceptions the [except] clause names. *)
Lemma read_labels_total i :
  read_labels container_str i = Returned (try_labels container_str i).1.
Proof.
  unfold read_labels, try_labels.
  destruct (channel_list i ≫= py_iter) as [chs|e] eqn:Hw.
  - destruct (append_labels container_str chs []) as [labels [e|]] eqn:Ha; [|done].
    simpl. by rewrite (append_labels_caught _ _ _ _ Ha).
  - simpl. by rewrite (channel_list_caught _ _ Hw).
Qed.

Lemma channel_labels_eq i :
  channel_labels container_str i
  = Returned (match (try_labels container_str i).1 with
              | [] => placeholder_labels (channel_count i)
              | l => l
              end).
Proof.
  unfold channel_labels. rewrite read_labels_total. simpl.
  by destruct (try_labels container_str i).1.
Qed.

(** The label list is the placeholders, or the non-empty list of the labels
    appended before the [try] block ended. *)
Lemma channel_labels_cases i labels :
  channel_labels container_str i = Returned labels →
  labels = placeholder_labels (channel_count i)
  ∨ (labels = (try_labels container_str i).1 ∧ labels ≠ []).
Proof.
  rewrite channel_labels_eq. intros [= <-].
  destruct (try_labels container_str i).1; [by left | by right].
Qed.

Lemma length_placeholder_labels n : length (placeholder_labels n) = n.
Proof. unfold placeholder_labels. by rewrite length_fmap, length_seq. Qed.

Lemma NoDup_placeholder_labels n : NoDup (placeholder_labels n).
Proof.
  unfold placeholder_labels. apply NoDup_fmap_2; [|apply NoDup_seq].
  intros j k Hjk. apply (inj pretty). by apply (inj (String.append "EEG ")).
Qed.

Lemma placeholder_labels_lookup n k :
  (k < n)%nat → placeholder_labels n !! k = Some ("EEG " +:+ pretty k).
Proof.
  intros Hk. unfold placeholder_labels.
  by rewrite list_lookup_fmap, lookup_seq_lt.
Qed.

Lemma append_labels_acc chs acc :
  (append_labels container_str chs acc).1
  = acc ++ (append_labels container_str chs []).1.
Proof.
  revert acc. induction chs as [|ch rest IH]; intros acc; simpl.
  - by rewrite app_nil_r.
  - destruct (label_of container_str ch) as [s|e]; simpl.
    + rewrite (IH (acc ++ [s])), (IH [s]). by rewrite <- app_assoc.
    + by rewrite app_nil_r.
Qed.

(** No label is read exactly when the walk fails before the loop, the
    channel list is empty, or the first channel has no readable label. *)
Lemma no_label_read i :
  (try_labels container_str i).1 = [] ↔ labels_absent container_str i.
Proof.
  unfold try_labels, labels_absent.
  destruct (channel_list i ≫= py_iter) as [[|ch rest]|e]; simpl; try done.
  destruct (label_of container_str ch) as [s|e] eqn:Hl; simpl.
  - rewrite append_labels_acc. split; [by destruct (_.1) | by intros [? ?]].
  - split; eauto.
Qed.

End labels.

(** ** The sample matrix *)

Lemma transpose_shape a :
  n_rows (transpose a) = n_cols a ∧ n_cols (transpose a) = n_rows a.
Proof. unfold transpose, n_rows. simpl. by rewrite length_fmap, length_seq. Qed.

(** The sample at row [i], column [j] of the source is at row [j], column
    [i] of the transposed matrix. *)
Lemma transpose_lookup a i j row x :
  cells a !! i = Some row → row !! j = Some x → (j < n_cols a)%nat →
  ∃ col, cells (transpose a) !! j = Some col ∧ col !! i = Some x.
Proof.
  intros Hrow Hx Hj. eexists. split.
  - unfold transpose. simpl. rewrite list_lookup_fmap, lookup_seq_lt by done. done.
  - rewrite list_lookup_fmap, Hrow. simpl. f_equal.
    by apply nth_lookup_Some with (d := 0%float) in Hx.
Qed.

(** ** The recording and its annotations *)

Section recording.

Variable container_str : pyval → string.
Variable asarray : list pyval → option ndarray.
Variable takes_descriptions : list event_value → bool.

#[local] Abbreviation channel_labels := (channel_labels container_str).
#[local] Abbreviation np_array := (np_array asarray).
#[local] Abbreviation build_raw := (build_raw container_str asarray).
#[local] Abbreviation stream_annotations := (stream_annotations takes_descriptions).
#[local] Abbreviation annotate := (annotate takes_descriptions).
#[local] Abbreviation read_raw_xdf :=
  (read_raw_xdf container_str asarray takes_descriptions).

Lemma np_array_Raised ts e : np_array ts = Raised e → e = LibraryError.
Proof.
  destruct ts as [a|items]; simpl; [done|].
  destruct (asarray items); [done|]. by intros [= <-].
Qed.

(** What a successfully built recording is made of. *)
Lemma build_raw_Returned fname s raw :
  build_raw fname s = Returned raw ↔
  ∃ labels a,
    channel_labels (info s) = Returned labels
    ∧ length labels = channel_count (info s)
    ∧ (nominal_srate (info s) <=? 0)%float = false
    ∧ np_array (time_series s) = Returned a
    ∧ n_cols a = channel_count (info s)
    ∧ raw = {| raw_info := {| ch_names := labels; sfreq := nominal_srate (info s);
                              ch_types := replicate (channel_count (info s)) "eeg" |};
               raw_data := transpose a; _filenames := [fname]; annotations := [] |}.
Proof.
  unfold build_raw. rewrite channel_labels_eq. simpl.
  set (labels := match _ with [] => _ | _ => _ end).
  unfold create_info. rewrite length_replicate.
  destruct (nominal_srate (info s) <=? 0)%float eqn:Hfs; simpl.
  { split; [done | by intros (? & ? & _ & _ & ? & _)]. }
  destruct (np_array (time_series s)) as [a|e] eqn:Ha; simpl.
  - unfold RawArray. simpl. rewrite (proj1 (transpose_shape a)).
    split.
    + case_bool_decide as Hl; simpl; [|done].
      case_bool_decide as Hc; simpl; [|done].
      intros [= <-]. exists labels, a. repeat split; [done|congruence].
    + intros (labels' & a' & [= <-] & Hl & _ & [= <-] & Hc & ->).
      rewrite bool_decide_eq_true_2 by done. simpl.
      rewrite bool_decide_eq_true_2 by congruence. done.
  - split.
    + by case_bool_decide.
    + by intros (? & ? & _ & _ & _ & ? & _).
Qed.

(** The container takes only as many names as declared channels. *)
Lemma build_raw_names_length fname s raw :
  build_raw fname s = Returned raw →
  length (ch_names (raw_info raw)) = channel_count (info s).
Proof. by intros (labels & a & _ & Hlen & _ & _ & _ & ->)%build_raw_Returned. Qed.

Lemma build_raw_Raised fname s e :
  build_raw fname s = Raised e → e = LibraryError.
Proof.
  unfold build_raw. rewrite channel_labels_eq. simpl.
  unfold create_info.
  destruct (nominal_srate (info s) <=? 0)%float; simpl; [by intros [= <-]|].
  case_bool_decide; simpl; [|by intros [= <-]].
  destruct (np_array (time_series s)) as [a|e'] eqn:Ha; simpl.
  - unfold RawArray. case_bool_decide; simpl; [done | by intros [= <-]].
  - intros [= <-]. by eapply np_array_Raised.
Qed.

Lemma mapM_cons {A B} (f : A → outcome B) x l :
  mapM f (x :: l) = y ← f x; k ← mapM f l; mret (y :: k).
Proof. done. Qed.

Lemma mapM_Returned {A B} (f : A → outcome B) l ds :
  mapM f l = Returned ds ↔ Forall2 (λ x d, f x = Returned d) l ds.
Proof.
  revert ds. induction l as [|x l IH]; intros ds.
  - split; [intros [= <-]; constructor | by intros ->%Forall2_nil_inv_l].
  - rewrite mapM_cons. split.
    + intros (y & Hy & H)%bind_Returned. apply bind_Returned in H as (k & Hk & [= <-]).
      constructor; [done | by apply IH].
    + intros (y & k & Hy & Hk & ->)%Forall2_cons_inv_l.
      apply IH in Hk. by rewrite Hy, Hk.
Qed.

Lemma mapM_Raised {A B} (f : A → outcome B) l e :
  mapM f l = Raised e → ∃ x, x ∈ l ∧ f x = Raised e.
Proof.
  induction l as [|x l IH]; [done|]. rewrite mapM_cons.
  intros [H | (y & _ & H)]%bind_Raised.
  - exists x. split; [left | done].
  - apply bind_Raised in H as [H | (? & _ & H)]; [|done].
    destruct (IH H) as (x' & Hin & Hx'). exists x'. split; [by right | done].
Qed.

(** The rule of [describe], case by case. *)
Lemma describe_Returned item d :
  describe item = Returned d ↔
  (∃ x l, item = EvObj (VList (x :: l)) ∧ d = EvObj x)
  ∨ ((∀ l, item ≠ EvObj (VList l)) ∧ d = item).
Proof.
  split.
  - destruct item as [[| |[|x l]| |]|]; simpl; intros [= <-]; eauto.
  - intros [(x & l & -> & ->) | [Hn ->]]; [done|].
    destruct item as [[| |l| |]|]; try done. by destruct (Hn l).
Qed.

Lemma describe_Raised item e :
  describe item = Raised e ↔ item = EvObj (VList []) ∧ e = IndexError.
Proof.
  split.
  - destruct item as [[| |[|x l]| |]|]; simpl; intros [= <-]; eauto.
  - by intros [-> ->].
Qed.

(** The annotations of one marker stream, event by event. *)
Lemma stream_annotations_Returned t0 ms l :
  stream_annotations t0 ms = Returned l →
  length l = length (time_stamps ms)
  ∧ length l = length (events (time_series ms))
  ∧ ∀ i a, l !! i = Some a →
      ∃ t item, time_stamps ms !! i = Some t
                ∧ events (time_series ms) !! i = Some item
                ∧ onset a = (t - t0)%float ∧ duration a = 0%Z
                ∧ describe item = Returned (description a).
Proof.
  unfold stream_annotations.
  intros (ds & Hds & H)%bind_Returned. apply mapM_Returned in Hds.
  unfold Annotations in H. rewrite length_replicate, length_fmap in H.
  destruct (takes_descriptions ds); [|done]. simpl in H.
  case_bool_decide as Hlen; [|done]. destruct Hlen as [_ Hlen]. injection H as <-.
  pose proof (Forall2_length _ _ _ Hds) as Hlen'.
  split; [|split].
  - rewrite length_zip_with, length_zip, length_fmap, length_replicate. lia.
  - rewrite length_zip_with, length_zip, length_fmap, length_replicate. lia.
  - intros i a (od & d & -> & Hod & Hd)%lookup_zip_with_Some.
    apply lookup_zip_with_Some in Hod as (o & du & -> & Ho & Hdu).
    apply list_lookup_fmap_Some in Ho as (t & -> & Ht).
    apply lookup_replicate in Hdu as [-> _].
    destruct (Forall2_lookup_r _ _ _ _ _ Hds Hd) as (item & Hitem & Hdesc).
    exists t, item. by repeat split.
Qed.

Lemma stream_annotations_Raised t0 ms e :
  stream_annotations t0 ms = Raised e → e = IndexError ∨ e = LibraryError.
Proof.
  unfold stream_annotations. intros [H | (ds & _ & H)]%bind_Raised.
  - apply mapM_Raised in H as (x & _ & [_ ->]%describe_Raised). by left.
  - unfold Annotations in H. destruct (_ && _); [done|]. injection H as <-. by right.
Qed.

(** Each pass of the loop appends to the collection the recording already
    has; nothing else of the recording changes. *)
Lemma annotate_Returned mss t0 raw raw' :
  annotate mss t0 raw = Returned raw' ↔
  ∃ ls, Forall2 (λ ms l, stream_annotations t0 ms = Returned l) mss ls
        ∧ raw' = set_annotations raw (annotations raw ++ concat ls).
Proof.
  revert raw. induction mss as [|ms rest IH]; intros raw; simpl.
  - split.
    + intros [= <-]. exists []. split; [constructor|].
      simpl. rewrite app_nil_r. by destruct raw.
    + intros (ls & ->%Forall2_nil_inv_l & ->). simpl. rewrite app_nil_r. by destruct raw.
  - split.
    + intros (l & Hl & H)%bind_Returned. apply IH in H as (ls & Hls & ->).
      exists (l :: ls). split; [by constructor|].
      simpl. by rewrite app_assoc.
    + intros (ls & (l & ls' & Hl & Hls & ->)%Forall2_cons_inv_l & ->).
      rewrite Hl. simpl. apply IH. exists ls'. split; [done|].
      simpl. by rewrite app_assoc.
Qed.

Lemma annotate_Raised mss t0 raw e :
  annotate mss t0 raw = Raised e → e = IndexError ∨ e = LibraryError.
Proof.
  revert raw. induction mss as [|ms rest IH]; intros raw; simpl; [done|].
  intros [H | (l & _ & H)]%bind_Raised; [by eapply stream_annotations_Raised | by eapply IH].
Qed.

(** The three stages of the function, once a data stream is selected. *)
Lemma read_raw_xdf_selected streams fname name mname ty mty s :
  search_eeg_stream streams name ty = Some s →
  read_raw_xdf streams fname name mname ty mty
  = raw ← build_raw fname s;
    first_samp ← first_timestamp s;
    annotate (find_markers_streams streams mname mty) first_samp raw.
Proof. unfold read_raw_xdf. by intros ->. Qed.

(** What a returned recording is made of. *)
Lemma read_raw_xdf_Returned streams fname name mname ty mty raw :
  read_raw_xdf streams fname name mname ty mty = Returned raw ↔
  ∃ s raw0 t0 ls,
    search_eeg_stream streams name ty = Some s
    ∧ build_raw fname s = Returned raw0
    ∧ head (time_stamps s) = Some t0
    ∧ Forall2 (λ ms l, stream_annotations t0 ms = Returned l)
              (find_markers_streams streams mname mty) ls
    ∧ raw = set_annotations raw0 (annotations raw0 ++ concat ls).
Proof.
  split.
  - unfold read_raw_xdf. destruct (search_eeg_stream streams name ty) as [s|] eqn:Hs; [|done].
    intros (raw0 & Hb & H)%bind_Returned.
    apply bind_Returned in H as (t0 & Ht & H).
    apply annotate_Returned in H as (ls & Hls & ->).
    exists s, raw0, t0, ls. repeat split; try done.
    unfold first_timestamp in Ht. destruct (time_stamps s); [done|]. by injection Ht as ->.
  - intros (s & raw0 & t0 & ls & Hs & Hb & Ht & Hls & ->).
    rewrite (read_raw_xdf_selected _ _ _ _ _ _ _ Hs), Hb. simpl.
    unfold first_timestamp. destruct (time_stamps s) as [|t ts]; [done|].
    injection Ht as ->. simpl. apply annotate_Returned. eauto.
Qed.

Lemma read_raw_xdf_Raised streams fname name mname ty mty e :
  read_raw_xdf streams fname name mname ty mty = Raised e →
  (search_eeg_stream streams name ty = None ∧ e = NoStreamFound)
  ∨ (∃ s, search_eeg_stream streams name ty = Some s
          ∧ (e = IndexError ∨ e = LibraryError)).
Proof.
  unfold read_raw_xdf. destruct (search_eeg_stream streams name ty) as [s|]; [|intros [= <-]; by left].
  intros H. right. exists s. split; [done|].
  apply bind_Raised in H as [H | (raw0 & _ & H)]; [right; by eapply build_raw_Raised|].
  apply bind_Raised in H as [H | (t0 & _ & H)]; [|by eapply annotate_Raised].
  unfold first_timestamp in H. destruct (time_stamps s); [|done]. injection H as <-. by left.
Qed.

(** C2. The function raises [ValueError('No EEG stream found')] exactly when
    no stream of the input satisfies the data-stream criterion (the given
    name, or else the given data type).  A call that raises returns no
    recording.  Every other exception that can leave the function is a
    low-level one: an [IndexError], or a rejection by the numeric or
    container library. *)
Theorem C2_no_stream_found streams fname name mname ty mty :
  (read_raw_xdf streams fname name mname ty mty = Raised NoStreamFound
   ↔ Forall (λ s, selects name ty s = false) streams)
  ∧ (∀ e, read_raw_xdf streams fname name mname ty mty = Raised e →
          ∀ raw, read_raw_xdf streams fname name mname ty mty ≠ Returned raw)
  ∧ (∀ e, read_raw_xdf streams fname name mname ty mty = Raised e →
          e ≠ NoStreamFound → e = IndexError ∨ e = LibraryError).
Proof.
  split; [|split].
  - rewrite <- search_eeg_stream_None. split.
    + intros [[H _] | (s & _ & [H | H])]%read_raw_xdf_Raised; done.
    + unfold read_raw_xdf. by intros ->.
  - intros e He raw. rewrite He. done.
  - intros e [[_ ->] | (s & _ & H)]%read_raw_xdf_Raised Hne; done.
Qed.

Lemma lookup_concat_Forall2 {A B} (P : A → list B → Prop) xs ls x :
  Forall2 P xs ls → x ∈ xs → ∃ l, l ∈ ls ∧ P x l.
Proof.
  intros H Hx. apply list_elem_of_lookup in Hx as [k Hk].
  destruct (Forall2_lookup_l _ _ _ _ _ H Hk) as (l & Hl & HP).
  exists l. split; [by eapply list_elem_of_lookup_2 | done].
Qed.

(** C3, as the code has it.  In a returned recording every event of every
    selected marker stream has an annotation, and every annotation comes
    from such an event: its onset is the event's time stamp minus the first
    time stamp of the selected data stream (nothing is clamped: the onset
    is negative when the event precedes the data), its duration is 0, and
    its description is the first element of the event value when that value
    is a Python list, of any length, and the value itself otherwise. *)
Theorem C3_annotation_of_event streams fname name mname ty mty raw :
  read_raw_xdf streams fname name mname ty mty = Returned raw →
  ∃ eeg t0,
    search_eeg_stream streams name ty = Some eeg
    ∧ head (time_stamps eeg) = Some t0
    ∧ (∀ ms i t item,
         ms ∈ find_markers_streams streams mname mty →
         time_stamps ms !! i = Some t →
         events (time_series ms) !! i = Some item →
         ∃ a, a ∈ annotations raw
              ∧ onset a = (t - t0)%float ∧ duration a = 0%Z
              ∧ (∀ x l, item = EvObj (VList (x :: l)) → description a = EvObj x)
              ∧ ((∀ l, item ≠ EvObj (VList l)) → description a = item))
    ∧ (∀ a, a ∈ annotations raw →
         ∃ ms i t item,
           ms ∈ find_markers_streams streams mname mty
           ∧ time_stamps ms !! i = Some t
           ∧ events (time_series ms) !! i = Some item
           ∧ onset a = (t - t0)%float ∧ duration a = 0%Z
           ∧ (∀ x l, item = EvObj (VList (x :: l)) → description a = EvObj x)
           ∧ ((∀ l, item ≠ EvObj (VList l)) → description a = item)).
Proof.
  intros (eeg & raw0 & t0 & ls & Hs & Hb & Ht & Hls & ->)%read_raw_xdf_Returned.
  assert (Hrule : ∀ item d, describe item = Returned d →
            (∀ x l, item = EvObj (VList (x :: l)) → d = EvObj x)
            ∧ ((∀ l, item ≠ EvObj (VList l)) → d = item)).
  { intros item d [(x & l & -> & ->) | [Hn ->]]%describe_Returned; split; try done.
    - by intros ? ? [= -> _].
    - intros H. by destruct (H (x :: l)).
    - intros x l ->. by destruct (Hn (x :: l)). }
  apply build_raw_Returned in Hb as (labels & arr & _ & _ & _ & _ & _ & ->). simpl.
  exists eeg, t0. repeat split; try done.
  - intros ms i t item Hms Hi Hitem.
    destruct (lookup_concat_Forall2 _ _ _ _ Hls Hms) as (l & Hl & Hsa).
    apply stream_annotations_Returned in Hsa as (Hlen1 & Hlen2 & Hpt).
    destruct (lookup_lt_is_Some_2 l i) as [a Ha].
    { rewrite Hlen1. by eapply lookup_lt_Some. }
    destruct (Hpt i a Ha) as (t' & item' & Ht' & Hitem' & Ho & Hd & Hdesc).
    assert (t' = t) as -> by congruence. assert (item' = item) as -> by congruence.
    exists a. split.
    + apply list_elem_of_In, in_concat. exists l.
      split; apply list_elem_of_In; [done | by eapply list_elem_of_lookup_2].
    + repeat split; try done; by apply (Hrule item).
  - intros a (l & Hl & Ha)%list_elem_of_In%in_concat.
    apply list_elem_of_In, list_elem_of_lookup in Hl as [k Hk].
    destruct (Forall2_lookup_r _ _ _ _ _ Hls Hk) as (ms & Hms & Hsa).
    apply stream_annotations_Returned in Hsa as (_ & _ & Hpt).
    apply list_elem_of_In, list_elem_of_lookup in Ha as [i Hi].
    destruct (Hpt i a Hi) as (t & item & Ht' & Hitem & Ho & Hd & Hdesc).
    exists ms, i, t, item. repeat split; try done;
      [by eapply list_elem_of_lookup_2 | by apply (Hrule item) | by apply (Hrule item)].
Qed.

(** C5. The loop over the selected marker streams appends the annotations
    of each stream to the collection the recording already has, and changes
    nothing else.  Hence a returned recording holds, in this order, the
    annotations of the first selected stream, then those of the second, and
    so on in loader order; within a stream the k-th annotation is that of
    the k-th event. *)
Theorem C5_annotations_accumulate :
  (∀ mss t0 raw raw',
     annotate mss t0 raw = Returned raw' →
     ∃ ls, Forall2 (λ ms l, stream_annotations t0 ms = Returned l) mss ls
           ∧ annotations raw' = annotations raw ++ concat ls)
  ∧ (∀ streams fname name mname ty mty raw,
       read_raw_xdf streams fname name mname ty mty = Returned raw →
       ∃ eeg t0 ls,
         search_eeg_stream streams name ty = Some eeg
         ∧ head (time_stamps eeg) = Some t0
         ∧ annotations raw = concat ls
         ∧ Forall2 (λ ms l,
              length l = length (events (time_series ms))
              ∧ ∀ k a, l !! k = Some a →
                  ∃ t item, time_stamps ms !! k = Some t
                            ∧ events (time_series ms) !! k = Some item
                            ∧ onset a = (t - t0)%float
                            ∧ describe item = Returned (description a))
              (find_markers_streams streams mname mty) ls).
Proof.
  split.
  - intros mss t0 raw raw' (ls & Hls & ->)%annotate_Returned. eauto.
  - intros streams fname name mname ty mty raw
      (eeg & raw0 & t0 & ls & Hs & Hb & Ht & Hls & ->)%read_raw_xdf_Returned.
    apply build_raw_Returned in Hb as (labels & arr & _ & _ & _ & _ & _ & ->). simpl.
    exists eeg, t0, ls. repeat split; try done.
    eapply Forall2_impl; [exact Hls|]. simpl.
    intros ms l (_ & Hlen & Hpt)%stream_annotations_Returned. split; [done|].
    intros k a Hk. destruct (Hpt k a Hk) as (t & item & ? & ? & ? & _ & ?). eauto 10.
Qed.

Lemma search_the_only_match streams name ty s :
  s ∈ streams → selects name ty s = true →
  (∀ x, x ∈ streams → selects name ty x = true → x = s) →
  search_eeg_stream streams name ty = Some s.
Proof.
  intros Hin Hsel Huniq.
  destruct (search_eeg_stream streams name ty) as [s'|] eqn:Hs.
  - apply search_eeg_stream_first in Hs as (pre & post & -> & Hsel' & _).
    f_equal. apply Huniq; [|done]. apply elem_of_app. right. left.
  - apply search_eeg_stream_None in Hs.
    rewrite Forall_forall in Hs. specialize (Hs s Hin). congruence.
Qed.

Lemma find_markers_none streams name ty :
  truthy name = false → (∀ x, x ∈ streams → type_eq x ty = false) →
  find_markers_streams streams name ty = [].
Proof.
  intros Hn Hnone. rewrite find_markers_by_type by done.
  induction streams as [|x rest IH]; simpl; [done|].
  rewrite (Hnone x) by left. apply IH. intros y Hy. apply Hnone. by right.
Qed.

(** C6. The input holds exactly one stream of the requested data type and
    no stream of the requested marker type, and no name is given.  Then a
    recording is returned exactly when the labels, the rate, the sample
    matrix and the time stamps of that stream make one (as many labels and
    as many columns as declared channels, a positive nominal rate, at least
    one time stamp); and a returned
    recording has as many channels as the stream declares, as many samples
    as the stream's time series has rows, no annotation, and the transpose
    of the source matrix as data: the sample at row [i], column [j] of the
    source is at row [j], column [i] of the output. *)
Theorem C6_single_stream_recording streams fname name mname ty mty s :
  truthy name = false → truthy mname = false →
  s ∈ streams → type_eq s ty = true →
  (∀ x, x ∈ streams → type_eq x ty = true → x = s) →
  (∀ x, x ∈ streams → type_eq x mty = false) →
  ((∃ raw, read_raw_xdf streams fname name mname ty mty = Returned raw) ↔
   (∃ labels a t0,
      channel_labels (info s) = Returned labels
      ∧ length labels = channel_count (info s)
      ∧ (nominal_srate (info s) <=? 0)%float = false
      ∧ np_array (time_series s) = Returned a
      ∧ n_cols a = channel_count (info s)
      ∧ head (time_stamps s) = Some t0))
  ∧ ∀ raw,
      read_raw_xdf streams fname name mname ty mty = Returned raw →
      n_channels raw = channel_count (info s)
      ∧ n_rows (raw_data raw) = channel_count (info s)
      ∧ annotations raw = []
      ∧ ∃ a, np_array (time_series s) = Returned a
             ∧ (∀ a', time_series s = TSArray a' → a' = a)
             ∧ n_times raw = n_rows a
             ∧ raw_data raw = transpose a
             ∧ ∀ i j row x,
                 cells a !! i = Some row → row !! j = Some x → (j < n_cols a)%nat →
                 ∃ col, cells (raw_data raw) !! j = Some col ∧ col !! i = Some x.
Proof.
  intros Hn Hm Hin Hty Huniq Hnomk.
  assert (search_eeg_stream streams name ty = Some s) as Hs.
  { apply search_the_only_match; unfold selects; rewrite ?Hn; [done..|].
    intros x Hx Hsel. by apply Huniq. }
  pose proof (find_markers_none streams mname mty Hm Hnomk) as Hnone.
  split.
  - split.
    + intros (raw & (s' & raw0 & t0 & ls & Hs' & Hb & Ht & _)%read_raw_xdf_Returned).
      assert (s' = s) as -> by congruence.
      apply build_raw_Returned in Hb as (labels & a & Hl & Hlen & Hfs & Ha & Hc & _).
      by exists labels, a, t0.
    + intros (labels & a & t0 & Hl & Hlen & Hfs & Ha & Hc & Ht).
      eexists. apply read_raw_xdf_Returned.
      eexists s, _, t0, []. rewrite Hnone.
      split; [done|]. split; [|split; [done|split; [constructor|done]]].
      apply build_raw_Returned. by exists labels, a.
  - intros raw (s' & raw0 & t0 & ls & Hs' & Hb & Ht & Hls & ->)%read_raw_xdf_Returned.
    assert (s' = s) as -> by congruence.
    rewrite Hnone in Hls. apply Forall2_nil_inv_l in Hls as ->.
    apply build_raw_Returned in Hb as (labels & a & Hl & Hlen & _ & Ha & Hc & ->).
    unfold n_channels, n_times. simpl.
    repeat split; try done.
    + by rewrite (proj1 (transpose_shape a)).
    + exists a. repeat split; try done.
      * intros a' Hts. rewrite Hts in Ha. simpl in Ha. by injection Ha.
      * apply (transpose_lookup a).
Qed.

Lemma placeholders_accepted fname s a :
  labels_absent container_str (info s) →
  (nominal_srate (info s) <=? 0)%float = false →
  np_array (time_series s) = Returned a → n_cols a = channel_count (info s) →
  ∃ raw0, build_raw fname s = Returned raw0
          ∧ ch_names (raw_info raw0) = placeholder_labels (channel_count (info s)).
Proof.
  intros Habs Hfs Ha Hc. eexists. split.
  - apply build_raw_Returned. eexists _, a. repeat split; try done.
    + rewrite channel_labels_eq. apply no_label_read in Habs. by rewrite Habs.
    + apply length_placeholder_labels.
  - done.
Qed.

(** C7, as the code has it.  Reading the labels never raises.  When the
    descriptor of the selected data stream yields no label (a step of the
    walk to the channel list fails, whatever the step and the reason; or
    the list is empty; or its first channel has no readable label), the
    [try] block ends with an empty list, the channel names are exactly
    ["EEG 0"], ..., ["EEG n-1"] for the declared channel count [n], pairwise
    distinct, the container accepts them, and a returned recording carries
    them. *)
Theorem C7_label_fallback streams fname name mname ty mty s :
  search_eeg_stream streams name ty = Some s →
  labels_absent container_str (info s) →
  (∀ i, ∃ labels, read_labels container_str i = Returned labels)
  ∧ read_labels container_str (info s) = Returned []
  ∧ channel_labels (info s) = Returned (placeholder_labels (channel_count (info s)))
  ∧ length (placeholder_labels (channel_count (info s))) = channel_count (info s)
  ∧ NoDup (placeholder_labels (channel_count (info s)))
  ∧ (∀ k, (k < channel_count (info s))%nat →
          placeholder_labels (channel_count (info s)) !! k = Some ("EEG " +:+ pretty k))
  ∧ (∀ a, (nominal_srate (info s) <=? 0)%float = false →
          np_array (time_series s) = Returned a → n_cols a = channel_count (info s) →
          ∃ raw0, build_raw fname s = Returned raw0
                  ∧ ch_names (raw_info raw0) = placeholder_labels (channel_count (info s)))
  ∧ (∀ raw, read_raw_xdf streams fname name mname ty mty = Returned raw →
            ch_names (raw_info raw) = placeholder_labels (channel_count (info s))).
Proof.
  intros Hs Habs. pose proof Habs as Hnil. apply no_label_read in Hnil.
  split; [|split; [|split; [|split; [|split; [|split; [|split]]]]]].
  - intros i. rewrite read_labels_total. eauto.
  - by rewrite read_labels_total, Hnil.
  - by rewrite channel_labels_eq, Hnil.
  - apply length_placeholder_labels.
  - apply NoDup_placeholder_labels.
  - apply placeholder_labels_lookup.
  - intros a. by apply placeholders_accepted.
  - intros raw (s' & raw0 & t0 & ls & Hs' & Hb & _ & _ & ->)%read_raw_xdf_Returned.
    assert (s' = s) as -> by congruence.
    apply build_raw_Returned in Hb as (labels & a & Hl & _ & _ & _ & _ & ->). simpl.
    rewrite channel_labels_eq, Hnil in Hl. by injection Hl.
Qed.

(** C9, as the code has it.  When no stream matches the marker criterion,
    the loop over marker streams runs zero times: the function returns the
    recording built from the data stream, with no annotation.  An
    exception raised by such a call comes from the stages before the marker
    search, and is raised whatever the marker arguments are. *)
Theorem C9_absent_marker_match streams fname name mname ty mty :
  find_markers_streams streams mname mty = [] →
  (∀ s raw0 t0,
     search_eeg_stream streams name ty = Some s →
     build_raw fname s = Returned raw0 → head (time_stamps s) = Some t0 →
     read_raw_xdf streams fname name mname ty mty = Returned raw0
     ∧ annotations raw0 = [])
  ∧ (∀ raw, read_raw_xdf streams fname name mname ty mty = Returned raw →
            annotations raw = [])
  ∧ (∀ e, read_raw_xdf streams fname name mname ty mty = Raised e →
          ∀ mname' mty', read_raw_xdf streams fname name mname' ty mty' = Raised e).
Proof.
  intros Hnone. split; [|split].
  - intros s raw0 t0 Hs Hb Ht. split.
    + apply read_raw_xdf_Returned. exists s, raw0, t0, []. rewrite Hnone.
      repeat split; try done. simpl. rewrite app_nil_r. by destruct raw0.
    + by apply build_raw_Returned in Hb as (? & ? & _ & _ & _ & _ & _ & ->).
  - intros raw (s & raw0 & t0 & ls & Hs & Hb & Ht & Hls & ->)%read_raw_xdf_Returned.
    rewrite Hnone in Hls. apply Forall2_nil_inv_l in Hls as ->.
    by apply build_raw_Returned in Hb as (? & ? & _ & _ & _ & _ & _ & ->).
  - intros e He mname' mty'. revert He. unfold read_raw_xdf.
    destruct (search_eeg_stream streams name ty) as [s|]; [|done].
    destruct (build_raw fname s) as [raw0|e0]; simpl; [|done].
    destruct (first_timestamp s) as [t0|e1]; simpl; [|done].
    by rewrite Hnone.
Qed.


End recording.

(** * The model at work *)

(** The recording read from [eeg_plain] and the marker streams that follow
    it: placeholder names, transposed samples, and the annotations of both
    marker streams in loader order, aligned on the first data time stamp
    (100); the event at 99 gets the onset -1. *)
Example read_raw_xdf_sample :
  read_raw_xdf sample_str sample_asarray sample_takes [eeg_plain; markers_abc; markers_early]
    "rec.xdf" None None "EEG" "Markers"
  = Returned
      {| raw_info := {| ch_names := ["EEG 0"; "EEG 1"]; sfreq := 100%float;
                        ch_types := ["eeg"; "eeg"] |};
         raw_data := {| cells := [[1; 3; 5]; [2; 4; 6]]%float; n_cols := 3 |};
         _filenames := ["rec.xdf"];
         annotations :=
           [ {| onset := 0; duration := 0; description := EvObj (VStr "a") |};
             {| onset := 5; duration := 0; description := EvObj (VStr "b") |};
             {| onset := 10; duration := 0; description := EvObj (VStr "c") |};
             {| onset := (-1); duration := 0; description := EvObj (VStr "x") |};
             {| onset := 3; duration := 0; description := EvObj (VStr "y") |} ] |}.
Proof. vm_compute. reflexivity. Qed.

(** Labels are read from a descriptor that has them. *)
Example channel_labels_read :
  channel_labels sample_str (info eeg_labelled) = Returned ["Fz"; "Cz"].
Proof. vm_compute. reflexivity. Qed.

(** Structural absences at each step of the walk, each ending in the
    placeholders: no ['desc'] key; an empty list under it; [None] in it; a
    plain dictionary without ['channels']; text where the channel list
    should be; an empty channel list; a first channel without label (plain
    dictionary, then the loader's dictionary); an empty label. *)
Example channel_labels_fallbacks :
  Forall (λ d, channel_labels sample_str
                 {| info_name := Some "amp"; info_type := Some "EEG"; channel_count := 3;
                    nominal_srate := 100%float; desc := d |}
               = Returned ["EEG 0"; "EEG 1"; "EEG 2"])
    [ None;
      Some (VList []);
      Some (VList [VNone]);
      Some (VList [VDict ∅]);
      Some (VList [VDict {[ "channels" := VList [VStr "none"] ]}]);
      Some (desc_of []);
      Some (desc_of [VDict ∅; channel_entry "Cz"]);
      Some (desc_of [unlabelled_entry; channel_entry "Cz"]);
      Some (desc_of [VDict {[ "label" := VList [] ]}]) ].
Proof. repeat constructor. Qed.

(** C1 on the sample streams, by name and by type. *)
Lemma C1_data_stream_selection_witness :
  search_eeg_stream [eeg_plain; markers_abc; markers_early] (Some "events") "EEG"
    = head (List.filter (λ s, name_eq s (Some "events"))
                        [eeg_plain; markers_abc; markers_early])
  ∧ search_eeg_stream [markers_abc; eeg_plain; eeg_labelled] None "EEG"
    = head (List.filter (λ s, type_eq s "EEG") [markers_abc; eeg_plain; eeg_labelled]).
Proof.
  split.
  - exact (proj1 (proj1 (C1_data_stream_selection
                           [eeg_plain; markers_abc; markers_early] (Some "events") "EEG")
                        eq_refl)).
  - exact (proj1 (proj2 (C1_data_stream_selection
                           [markers_abc; eeg_plain; eeg_labelled] None "EEG")
                        eq_refl)).
Defined.

(** C4 on the sample streams, by name and by type. *)
Lemma C4_marker_stream_selection_witness :
  find_markers_streams [eeg_plain; markers_abc; markers_early] (Some "events") "Markers"
    = option_list (head (List.filter (λ s, name_eq s (Some "events"))
                                     [eeg_plain; markers_abc; markers_early]))
  ∧ find_markers_streams [eeg_plain; markers_abc; markers_early] None "Markers"
    = List.filter (λ s, type_eq s "Markers") [eeg_plain; markers_abc; markers_early].
Proof.
  split.
  - exact (proj1 (proj1 (C4_marker_stream_selection
                           [eeg_plain; markers_abc; markers_early] (Some "events") "Markers")
                        eq_refl)).
  - exact (proj1 (proj2 (C4_marker_stream_selection
                           [eeg_plain; markers_abc; markers_early] None "Markers")
                        eq_refl)).
Defined.

(** C2 for a name no sample stream carries. *)
Lemma C2_no_stream_found_witness :
  Forall (λ s, selects (Some "absent") "EEG" s = false) [eeg_plain; markers_abc]
  ∧ read_raw_xdf sample_str sample_asarray sample_takes [eeg_plain; markers_abc]
      "rec.xdf" (Some "absent") None "EEG" "Markers" = Raised NoStreamFound.
Proof.
  assert (Forall (λ s, selects (Some "absent") "EEG" s = false) [eeg_plain; markers_abc])
    as H by (repeat constructor).
  split; [exact H|].
  exact (proj2 (proj1 (C2_no_stream_found sample_str sample_asarray sample_takes
                         [eeg_plain; markers_abc] "rec.xdf" (Some "absent") None
                         "EEG" "Markers")) H).
Defined.

(** C3 for the event of [markers_early] that precedes the data. *)
Lemma C3_annotation_of_event_witness :
  ∃ raw,
    read_raw_xdf sample_str sample_asarray sample_takes [eeg_plain; markers_abc; markers_early]
      "rec.xdf" None None "EEG" "Markers" = Returned raw
    ∧ ∃ a, a ∈ annotations raw ∧ onset a = (99 - 100)%float ∧ duration a = 0%Z
           ∧ description a = EvObj (VStr "x").
Proof.
  eexists. split; [exact read_raw_xdf_sample|].
  destruct (C3_annotation_of_event sample_str sample_asarray sample_takes _ _ _ _ _ _ _
              read_raw_xdf_sample) as (eeg & t0 & Hs & Ht & Hev & _).
  vm_compute in Hs. injection Hs as <-. vm_compute in Ht. injection Ht as <-.
  destruct (Hev markers_early 0%nat 99%float (EvObj (VList [VStr "x"])))
    as (a & Hin & Ho & Hd & Hlist & _).
  - vm_compute. right. left.
  - reflexivity.
  - reflexivity.
  - exists a. repeat split; [exact Hin | exact Ho | exact Hd | by apply (Hlist _ [])].
Defined.

(** C5 for the two sample marker streams. *)
Lemma C5_annotations_accumulate_witness :
  ∃ raw ls,
    read_raw_xdf sample_str sample_asarray sample_takes [eeg_plain; markers_abc; markers_early]
      "rec.xdf" None None "EEG" "Markers" = Returned raw
    ∧ annotations raw = concat ls
    ∧ length ls = 2%nat.
Proof.
  eexists. 
  destruct (proj2 (C5_annotations_accumulate sample_str sample_asarray sample_takes) _ _ _ _ _ _ _
              read_raw_xdf_sample) as (eeg & t0 & ls & _ & _ & Hc & Hls).
  exists ls. split; [exact read_raw_xdf_sample|]. split; [exact Hc|].
  symmetry. exact (Forall2_length _ _ _ Hls).
Defined.

(** C6 for [eeg_plain] alone. *)
Lemma C6_single_stream_recording_witness :
  ∃ raw,
    read_raw_xdf sample_str sample_asarray sample_takes [eeg_plain] "rec.xdf" None None "EEG" "Markers"
      = Returned raw
    ∧ n_channels raw = 2%nat ∧ n_times raw = 3%nat ∧ annotations raw = []
    ∧ raw_data raw = transpose samples_3x2.
Proof.
  assert (∃ raw, read_raw_xdf sample_str sample_asarray sample_takes [eeg_plain] "rec.xdf"
                   None None "EEG" "Markers" = Returned raw) as [raw Hraw].
  { eexists. vm_compute. reflexivity. }
  exists raw. split; [exact Hraw|].
  assert (∀ x, x ∈ [eeg_plain] → type_eq x "EEG" = true → x = eeg_plain) as Huniq
    by (by intros x ->%list_elem_of_singleton).
  assert (∀ x, x ∈ [eeg_plain] → type_eq x "Markers" = false) as Hnomk
    by (by intros x ->%list_elem_of_singleton).
  destruct (proj2 (C6_single_stream_recording sample_str sample_asarray sample_takes
                     [eeg_plain] "rec.xdf" None None "EEG" "Markers" eeg_plain
                     eq_refl eq_refl (list_elem_of_here _ _) eq_refl Huniq Hnomk)
                  raw Hraw)
    as (Hch & _ & Hann & a & Ha & _ & Ht & Hd & _).
  injection Ha as <-. by repeat split.
Defined.

(** C7 for the empty descriptor of [eeg_plain]. *)
Lemma C7_label_fallback_witness :
  search_eeg_stream [eeg_plain] None "EEG" = Some eeg_plain
  ∧ labels_absent sample_str (info eeg_plain)
  ∧ channel_labels sample_str (info eeg_plain) = Returned ["EEG 0"; "EEG 1"].
Proof.
  assert (labels_absent sample_str (info eeg_plain)) as Habs by exact I.
  split; [reflexivity|]. split; [exact Habs|].
  exact (proj1 (proj2 (proj2 (C7_label_fallback sample_str sample_asarray sample_takes
                                [eeg_plain] "rec.xdf" None None "EEG" "Markers" eeg_plain
                                eq_refl Habs)))).
Defined.

(** C9 for a marker name no sample stream carries. *)
Lemma C9_absent_marker_match_witness :
  find_markers_streams [eeg_plain; markers_abc] (Some "absent") "Markers" = []
  ∧ ∃ raw0,
      build_raw sample_str sample_asarray "rec.xdf" eeg_plain = Returned raw0
      ∧ read_raw_xdf sample_str sample_asarray sample_takes [eeg_plain; markers_abc]
          "rec.xdf" None (Some "absent") "EEG" "Markers" = Returned raw0
      ∧ annotations raw0 = [].
Proof.
  split; [reflexivity|].
  assert (∃ raw0, build_raw sample_str sample_asarray "rec.xdf" eeg_plain = Returned raw0)
    as [raw0 Hb].
  { eexists. vm_compute. reflexivity. }
  exists raw0. split; [exact Hb|].
  exact (proj1 (C9_absent_marker_match sample_str sample_asarray sample_takes
                  [eeg_plain; markers_abc] "rec.xdf" None (Some "absent") "EEG" "Markers"
                  eq_refl)
               eeg_plain raw0 100%float eq_refl Hb eq_refl).
Defined.


(** ** Where the code departs from the stated properties *)

(** C3 as stated fails: an event that is a two-element list is not a
    one-element sequence, so the stated rule keeps it as it is, while the
    code takes its first element. *)
Lemma C3_description_counterexample :
  ∃ raw a,
    read_raw_xdf sample_str sample_asarray sample_takes [eeg_plain; markers_pair]
      "rec.xdf" None None "EEG" "Markers" = Returned raw
    ∧ events (time_series markers_pair) = [EvObj (VList [VStr "a"; VStr "b"])]
    ∧ annotations raw = [a]
    ∧ description a = EvObj (VStr "a")
    ∧ spec_description (VList [VStr "a"; VStr "b"]) = VList [VStr "a"; VStr "b"]
    ∧ description a ≠ EvObj (spec_description (VList [VStr "a"; VStr "b"])).
Proof.
  eexists _, _. split; [vm_compute; reflexivity|].
  split; [reflexivity|]. split; [reflexivity|]. split; [reflexivity|].
  split; [reflexivity|]. simpl. discriminate.
Qed.

(** C7 as stated fails: the walk over the descriptor of [eeg_partial] is
    ended by an [IndexError] at its second channel, after one label was read;
    the names are then not the placeholders, and the call raises.  And a
    call can raise for a reason of its own although the descriptor has no
    label: [eeg_unstamped] has no time stamp. *)
Lemma C7_partial_labels_counterexample :
  search_eeg_stream [eeg_partial] None "EEG" = Some eeg_partial
  ∧ (try_labels sample_str (info eeg_partial)).2 = Some IndexError
  ∧ structural_absence sample_str (info eeg_partial)
  ∧ channel_labels sample_str (info eeg_partial) = Returned ["Fz"]
  ∧ channel_labels sample_str (info eeg_partial)
    ≠ Returned (placeholder_labels (channel_count (info eeg_partial)))
  ∧ read_raw_xdf sample_str sample_asarray sample_takes [eeg_partial]
      "rec.xdf" None None "EEG" "Markers" = Raised LibraryError
  ∧ structural_absence sample_str (info eeg_unstamped)
  ∧ read_raw_xdf sample_str sample_asarray sample_takes [eeg_unstamped]
      "rec.xdf" None None "EEG" "Markers" = Raised IndexError.
Proof.
  assert ((try_labels sample_str (info eeg_partial)).2 = Some IndexError) as Hk
    by (vm_compute; reflexivity).
  split; [vm_compute; reflexivity|]. split; [exact Hk|].
  split; [by exists IndexError|].
  split; [vm_compute; reflexivity|].
  split; [vm_compute; discriminate|].
  split; [vm_compute; reflexivity|].
  split; [by exists TypeError | vm_compute; reflexivity].
Qed.

(** C8: the code at the failing input.  The descriptor of [eeg_partial]
    labels one of the two declared channels: the label list keeps that one
    label, its length is not the declared channel count, and the container
    rejects it. *)
Theorem C8_partial_labels_kept :
  search_eeg_stream [eeg_partial] None "EEG" = Some eeg_partial
  ∧ channel_count (info eeg_partial) = 2%nat
  ∧ read_labels sample_str (info eeg_partial) = Returned ["Fz"]
  ∧ channel_labels sample_str (info eeg_partial) = Returned ["Fz"]
  ∧ create_info ["Fz"] (nominal_srate (info eeg_partial)) (replicate 2 "eeg")
    = Raised LibraryError
  ∧ read_raw_xdf sample_str sample_asarray sample_takes [eeg_partial]
      "rec.xdf" None None "EEG" "Markers" = Raised LibraryError.
Proof. repeat split; vm_compute; reflexivity. Qed.

(** C9 as stated fails: no stream matches the marker name (or the marker
    type), and the call returns a recording instead of raising. *)
Lemma C9_absent_match_counterexample :
  find_markers_streams [eeg_plain; markers_abc] (Some "absent") "Markers" = []
  ∧ find_markers_streams [eeg_plain] None "Markers" = []
  ∧ (∃ raw, read_raw_xdf sample_str sample_asarray sample_takes [eeg_plain; markers_abc]
              "rec.xdf" None (Some "absent") "EEG" "Markers" = Returned raw
            ∧ annotations raw = [])
  ∧ (∃ raw, read_raw_xdf sample_str sample_asarray sample_takes [eeg_plain]
              "rec.xdf" None None "EEG" "Markers" = Returned raw
            ∧ annotations raw = []).
Proof.
  split; [reflexivity|]. split; [reflexivity|].
  split; eexists; (split; [vm_compute; reflexivity | reflexivity]).
Qed.


(** * Further properties of read_raw_xdf *)

(** ** Selection over a list of streams *)

Lemma search_eeg_stream_app l1 l2 name ty :
  search_eeg_stream (l1 ++ l2) name ty
  = match search_eeg_stream l1 name ty with
    | Some s => Some s
    | None => search_eeg_stream l2 name ty
    end.
Proof.
  induction l1 as [|x l1 IH]; simpl; [done|].
  destruct (truthy name).
  - destruct (name_eq x name); [done | exact IH].
  - destruct (type_eq x ty); [done | exact IH].
Qed.

Lemma find_markers_streams_app l1 l2 name ty :
  find_markers_streams (l1 ++ l2) name ty
  = if truthy name then
      match find_markers_streams l1 name ty with
      | [] => find_markers_streams l2 name ty
      | found => found
      end
    else find_markers_streams l1 name ty ++ find_markers_streams l2 name ty.
Proof.
  destruct (truthy name) eqn:Hn.
  - rewrite !find_markers_by_name by done. rewrite List.filter_app.
    by destruct (List.filter _ l1).
  - rewrite !find_markers_by_type by done. apply List.filter_app.
Qed.

(** X1. The streams of two loader results put one after the other: the data
    stream is the one found in the first list, and only when there is none,
    the one found in the second; by type the marker streams of both lists
    are selected, by name those of the second list only when the first has
    no stream of that name. *)
Theorem selection_over_concatenation l1 l2 name ty :
  search_eeg_stream (l1 ++ l2) name ty
  = match search_eeg_stream l1 name ty with
    | Some s => Some s
    | None => search_eeg_stream l2 name ty
    end
  ∧ find_markers_streams (l1 ++ l2) name ty
    = if truthy name then
        match find_markers_streams l1 name ty with
        | [] => find_markers_streams l2 name ty
        | found => found
        end
      else find_markers_streams l1 name ty ++ find_markers_streams l2 name ty.
Proof. split; [apply search_eeg_stream_app | apply find_markers_streams_app]. Qed.

Lemma find_markers_streams_filter streams name ty :
  find_markers_streams streams name ty
  = if truthy name then option_list (head (List.filter (selects name ty) streams))
    else List.filter (selects name ty) streams.
Proof.
  unfold selects. destruct (truthy name) eqn:Hn.
  - by apply find_markers_by_name.
  - by apply find_markers_by_type.
Qed.

Lemma filter_drop_unselected {A} (f : A → bool) pre x post :
  f x = false → List.filter f (pre ++ x :: post) = List.filter f (pre ++ post).
Proof. intros Hx. rewrite !List.filter_app. simpl. by rewrite Hx. Qed.

(** ** Marker streams, one by one *)

Lemma mapM_describe_empty_event l :
  EvObj (VList []) ∈ l → mapM describe l = Raised IndexError.
Proof.
  induction l as [|x l IH]; [by intros ?%elem_of_nil|].
  rewrite mapM_cons. intros [<-|Hin]%elem_of_cons; [done|].
  destruct (describe x) as [d|e] eqn:Hx; simpl.
  - by rewrite (IH Hin).
  - by apply describe_Raised in Hx as [_ ->].
Qed.

Lemma mapM_describe_no_empty_event l :
  EvObj (VList []) ∉ l →
  ∃ ds, mapM describe l = Returned ds ∧ length ds = length l.
Proof.
  intros Hne. destruct (mapM describe l) as [ds|e] eqn:Hm.
  - exists ds. split; [done|]. symmetry. by eapply Forall2_length, mapM_Returned.
  - by apply mapM_Raised in Hm as (x & Hin & [-> _]%describe_Raised).
Qed.

(** X2. The descriptions of one marker stream (line 95).  An event that is
    an empty list raises [IndexError] before the container is called,
    whatever the container takes and whatever the time stamps are.  With no
    such event, one description per event is built, and the three
    sequences handed to the container are the shifted time stamps, as many
    zeros, and these descriptions. *)
Theorem descriptions_before_container takes t0 ms :
  (EvObj (VList []) ∈ events (time_series ms) →
   stream_annotations takes t0 ms = Raised IndexError)
  ∧ (EvObj (VList []) ∉ events (time_series ms) →
     ∃ ds, mapM describe (events (time_series ms)) = Returned ds
           ∧ length ds = length (events (time_series ms))
           ∧ stream_annotations takes t0 ms
             = Annotations takes ((λ t, (t - t0)%float) <$> time_stamps ms)
                 (replicate (length (time_stamps ms)) 0%Z) ds).
Proof.
  split.
  - intros Hin. unfold stream_annotations. by rewrite (mapM_describe_empty_event _ Hin).
  - intros Hne. destruct (mapM_describe_no_empty_event _ Hne) as (ds & Hds & Hlen).
    exists ds. split; [done|]. split; [done|].
    unfold stream_annotations. rewrite Hds. simpl. by rewrite length_fmap.
Qed.

(** X3. The loop over the marker streams stops at the first stream whose
    annotations cannot be built, and raises what that stream raises: the
    streams before it have all been annotated, the streams after it are not
    looked at, and no recording is returned. *)
Theorem annotate_first_failure takes mss t0 raw e :
  annotate takes mss t0 raw = Raised e ↔
  ∃ pre ms post, mss = pre ++ ms :: post
                 ∧ Forall (λ m, ∃ l, stream_annotations takes t0 m = Returned l) pre
                 ∧ stream_annotations takes t0 ms = Raised e.
Proof.
  revert raw. induction mss as [|m rest IH]; intros raw; simpl.
  - split; [done|]. intros (pre & ms & post & Heq & _). by destruct pre.
  - destruct (stream_annotations takes t0 m) as [l|e'] eqn:Hm; simpl.
    + rewrite IH. split.
      * intros (pre & ms & post & -> & Hpre & Hms). exists (m :: pre), ms, post.
        repeat split; [|done]. constructor; [by exists l | done].
      * intros (pre & ms & post & Heq & Hpre & Hms). destruct pre as [|p pre].
        -- injection Heq as -> ->. congruence.
        -- injection Heq as -> ->. apply Forall_cons in Hpre as [_ Hpre].
           by exists pre, ms, post.
    + split.
      * intros [= <-]. exists [], m, rest. by repeat split.
      * intros (pre & ms & post & Heq & Hpre & Hms). destruct pre as [|p pre].
        -- injection Heq as -> ->. congruence.
        -- injection Heq as -> ->. apply Forall_cons in Hpre as [[l Hl] _]. congruence.
Qed.

(** ** The labels read from a descriptor *)

Section labels_read.

Variable container_str : pyval → string.

Lemma append_labels_prefix chs acc :
  ∃ k, (k ≤ length chs)%nat
       ∧ Forall2 (λ ch l, label_of container_str ch = Returned l) (take k chs)
                 (drop (length acc) (append_labels container_str chs acc).1)
       ∧ take (length acc) (append_labels container_str chs acc).1 = acc
       ∧ ((k = length chs ∧ (append_labels container_str chs acc).2 = None)
          ∨ ∃ ch e, chs !! k = Some ch ∧ label_of container_str ch = Raised e
                    ∧ (append_labels container_str chs acc).2 = Some e).
Proof.
  revert acc. induction chs as [|ch rest IH]; intros acc; simpl.
  - exists 0%nat. rewrite drop_all, firstn_all.
    split; [lia|]. split; [constructor|]. split; [done | by left].
  - destruct (label_of container_str ch) as [s|e] eqn:Hch.
    + destruct (IH (acc ++ [s])) as (k & Hk & Hpre & Hacc & Hend).
      rewrite length_app in Hpre, Hacc. simpl in Hpre, Hacc.
      set (out := (append_labels container_str rest (acc ++ [s])).1) in *.
      assert (out = acc ++ s :: drop (length acc + 1) out) as Hout.
      { rewrite <- (take_drop (length acc + 1) out) at 1. rewrite Hacc.
        by rewrite <- app_assoc. }
      exists (S k). split; [lia|]. split; [|split].
      * rewrite Hout at 1. rewrite drop_app_length. simpl. by constructor.
      * rewrite Hout. by rewrite take_app_length.
      * destruct Hend as [[-> Hn] | (ch' & e & Hl & He & Hr)]; [by left|].
        right. by exists ch', e.
    + exists 0%nat. simpl. rewrite drop_all, firstn_all.
      split; [lia|]. split; [constructor|]. split; [done|]. right. by exists ch, e.
Qed.

(** X4. The labels come from the descriptor in its order: when the channel list
    is reached, the labels kept are those of the channels that precede the
    first channel without a readable label, one per channel.  When every
    channel of a non-empty list has a readable label, the channel names are
    the labels of all of them, and the placeholders are not used. *)
Theorem labels_follow_descriptor i chs :
  channel_list i ≫= py_iter = Returned chs →
  (∃ k, (k ≤ length chs)%nat
        ∧ Forall2 (λ ch l, label_of container_str ch = Returned l)
                  (take k chs) (try_labels container_str i).1
        ∧ (k = length chs
           ∨ ∃ ch e, chs !! k = Some ch ∧ label_of container_str ch = Raised e))
  ∧ (chs ≠ [] →
     Forall (λ ch, ∃ l, label_of container_str ch = Returned l) chs →
     ∃ labels, channel_labels container_str i = Returned labels
               ∧ Forall2 (λ ch l, label_of container_str ch = Returned l) chs labels).
Proof.
  intros Hchs.
  assert (∃ k, (k ≤ length chs)%nat
        ∧ Forall2 (λ ch l, label_of container_str ch = Returned l)
                  (take k chs) (try_labels container_str i).1
        ∧ (k = length chs
           ∨ ∃ ch e, chs !! k = Some ch ∧ label_of container_str ch = Raised e))
    as (k & Hk & Hpre & Hend).
  { unfold try_labels. rewrite Hchs.
    destruct (append_labels_prefix chs []) as (k & Hk & Hpre & _ & Hend).
    exists k. split; [done|]. split; [exact Hpre|].
    destruct Hend as [[-> _] | (ch & e & ? & ? & _)]; [by left | right; eauto]. }
  split; [by exists k|].
  intros Hne Hall.
  assert (k = length chs) as ->.
  { destruct Hend as [-> | (ch & e & Hl & He)]; [done|].
    rewrite Forall_forall in Hall.
    destruct (Hall ch) as [l Hret]; [by eapply list_elem_of_lookup_2 | congruence]. }
  rewrite firstn_all in Hpre. rewrite channel_labels_eq.
  destruct (try_labels container_str i).1 as [|l ls] eqn:Hl.
  - apply Forall2_nil_inv_r in Hpre. done.
  - eauto.
Qed.

End labels_read.

(** ** The returned recording *)

Section returned.

Variable container_str : pyval → string.
Variable asarray : list pyval → option ndarray.
Variable takes_descriptions : list event_value → bool.

#[local] Abbreviation build_raw := (build_raw container_str asarray).
#[local] Abbreviation read_raw_xdf :=
  (read_raw_xdf container_str asarray takes_descriptions).

(** X5. The channel metadata and the shape of a returned recording (lines
    57-73): the file name is recorded, the rate is the nominal rate of the
    selected data stream, every channel has the type ["eeg"], and names,
    types and data rows are as many as the declared channels, each row
    holding one value per sample. *)
Theorem returned_recording_metadata streams fname name mname ty mty raw :
  read_raw_xdf streams fname name mname ty mty = Returned raw →
  ∃ s, search_eeg_stream streams name ty = Some s
       ∧ _filenames raw = [fname]
       ∧ sfreq (raw_info raw) = nominal_srate (info s)
       ∧ ch_types (raw_info raw) = replicate (channel_count (info s)) "eeg"
       ∧ length (ch_names (raw_info raw)) = channel_count (info s)
       ∧ n_rows (raw_data raw) = channel_count (info s)
       ∧ Forall (λ row, length row = n_times raw) (cells (raw_data raw)).
Proof.
  intros (s & raw0 & t0 & ls & Hs & Hb & _ & _ & ->)%read_raw_xdf_Returned.
  apply build_raw_Returned in Hb as (labels & a & _ & Hlen & _ & _ & Hc & ->).
  exists s. unfold n_times. simpl. repeat split; try done.
  - by rewrite (proj1 (transpose_shape a)).
  - apply Forall_fmap, Forall_forall. intros j _. simpl. by rewrite length_fmap.
Qed.

(** X6. The marker arguments bear on the annotations only: two calls that differ
    in the marker name and the marker type, and both return, return
    recordings with the same metadata, the same data and the same file
    names. *)
Theorem marker_arguments_touch_annotations_only
    streams fname name ty mname mty mname' mty' raw raw' :
  read_raw_xdf streams fname name mname ty mty = Returned raw →
  read_raw_xdf streams fname name mname' ty mty' = Returned raw' →
  raw_info raw' = raw_info raw
  ∧ raw_data raw' = raw_data raw
  ∧ _filenames raw' = _filenames raw.
Proof.
  intros (s & raw0 & t0 & ls & Hs & Hb & _ & _ & ->)%read_raw_xdf_Returned.
  intros (s' & raw0' & t0' & ls' & Hs' & Hb' & _ & _ & ->)%read_raw_xdf_Returned.
  assert (s' = s) as -> by congruence.
  assert (raw0' = raw0) as -> by congruence.
  done.
Qed.

(** X9. A stream that meets neither the data criterion nor the marker criterion
    does not matter: the call behaves the same with and without it,
    wherever it stands in the list. *)
Theorem unselected_stream_ignored pre x post fname name mname ty mty :
  selects name ty x = false → selects mname mty x = false →
  read_raw_xdf (pre ++ x :: post) fname name mname ty mty
  = read_raw_xdf (pre ++ post) fname name mname ty mty.
Proof.
  intros Hd Hm. unfold read_raw_xdf.
  rewrite !search_eeg_stream_head, !find_markers_streams_filter.
  by rewrite !filter_drop_unselected.
Qed.

End returned.

(** ** The further properties on the sample recordings *)

(** The labels of [eeg_labelled] follow its descriptor. *)
Lemma labels_follow_descriptor_witness :
  channel_list (info eeg_labelled) ≫= py_iter
    = Returned [channel_entry "Fz"; channel_entry "Cz"]
  ∧ ∃ labels, channel_labels sample_str (info eeg_labelled) = Returned labels
              ∧ Forall2 (λ ch l, label_of sample_str ch = Returned l)
                        [channel_entry "Fz"; channel_entry "Cz"] labels.
Proof.
  assert (channel_list (info eeg_labelled) ≫= py_iter
          = Returned [channel_entry "Fz"; channel_entry "Cz"]) as Hchs by reflexivity.
  split; [exact Hchs|].
  apply (proj2 (labels_follow_descriptor sample_str (info eeg_labelled) _ Hchs)).
  - discriminate.
  - repeat constructor; eexists; reflexivity.
Defined.

(** The metadata of the recording read from the sample streams. *)
Lemma returned_recording_metadata_witness :
  ∃ raw,
    read_raw_xdf sample_str sample_asarray sample_takes [eeg_plain; markers_abc; markers_early]
      "rec.xdf" None None "EEG" "Markers" = Returned raw
    ∧ _filenames raw = ["rec.xdf"]
    ∧ ch_types (raw_info raw) = ["eeg"; "eeg"]
    ∧ Forall (λ row, length row = n_times raw) (cells (raw_data raw)).
Proof.
  eexists. split; [exact read_raw_xdf_sample|].
  destruct (returned_recording_metadata sample_str sample_asarray sample_takes _ _ _ _ _ _ _
              read_raw_xdf_sample) as (s & Hs & Hf & _ & Ht & _ & _ & Hrows).
  vm_compute in Hs. injection Hs as <-. by repeat split.
Defined.

(** Selecting the markers by name instead of by type leaves metadata and
    data as they are. *)
Lemma marker_arguments_touch_annotations_only_witness :
  ∃ raw raw',
    read_raw_xdf sample_str sample_asarray sample_takes [eeg_plain; markers_abc; markers_early]
      "rec.xdf" None None "EEG" "Markers" = Returned raw
    ∧ read_raw_xdf sample_str sample_asarray sample_takes [eeg_plain; markers_abc; markers_early]
        "rec.xdf" None (Some "events") "EEG" "Stim" = Returned raw'
    ∧ raw_info raw' = raw_info raw ∧ raw_data raw' = raw_data raw.
Proof.
  assert (∃ raw', read_raw_xdf sample_str sample_asarray sample_takes
                    [eeg_plain; markers_abc; markers_early]
                    "rec.xdf" None (Some "events") "EEG" "Stim" = Returned raw')
    as [raw' Hraw'].
  { eexists. vm_compute. reflexivity. }
  eexists _, raw'. split; [exact read_raw_xdf_sample|]. split; [exact Hraw'|].
  destruct (marker_arguments_touch_annotations_only sample_str sample_asarray sample_takes
              _ _ _ _ _ _ _ _ _ _ read_raw_xdf_sample Hraw') as (Hi & Hd & _).
  split; [exact Hi | exact Hd].
Defined.

(** [markers_pair] is neither of type ["EEG"] nor named ["events"]. *)
Lemma unselected_stream_ignored_witness :
  selects None "EEG" markers_pair = false
  ∧ selects (Some "events") "Markers" markers_pair = false
  ∧ read_raw_xdf sample_str sample_asarray sample_takes [eeg_plain; markers_pair; markers_abc]
      "rec.xdf" None (Some "events") "EEG" "Markers"
    = read_raw_xdf sample_str sample_asarray sample_takes [eeg_plain; markers_abc]
        "rec.xdf" None (Some "events") "EEG" "Markers".
Proof.
  split; [reflexivity|]. split; [reflexivity|].
  exact (unselected_stream_ignored sample_str sample_asarray sample_takes [eeg_plain] markers_pair
           [markers_abc] "rec.xdf" None (Some "events") "EEG" "Markers" eq_refl eq_refl).
Defined.
